(** * Twin_agent: the two-agent reply pipeline of [main.py]

    [main.py] asks a question on standard input, configures two agents and
    two tasks of an agent-orchestration framework, starts the crew once and
    reports on the file [johnson_reply.md].  This development embeds the
    program as a computation in a small state-and-exception monad over an
    explicit world (standard input, file system, an event log), with the
    framework and the platform text codec as parameters, and proves the
    properties stated about it. *)

From stdpp Require Import gmap strings list.
From Stdlib Require Import Strings.Byte NArith DecimalString.

Local Open Scope N_scope.

(** ** Python text *)

(** A Python [str] is a sequence of Unicode code points. *)
Definition codepoint := N.
Abbreviation pystr := (list codepoint).

Definition is_cont (c : N) : bool := (0x80 <=? c) && (c <=? 0xBF).
Definition in_range (lo hi c : N) : bool := (lo <=? c) && (c <=? hi).

(** Valid range of the second byte of a multi-byte sequence, by lead byte
    (this is what rules out overlong forms, surrogates and code points
    above U+10FFFF). *)
Definition second_ok (c0 c1 : N) : bool :=
  if c0 =? 0xE0 then in_range 0xA0 0xBF c1
  else if c0 =? 0xED then in_range 0x80 0x9F c1
  else if c0 =? 0xF0 then in_range 0x90 0xBF c1
  else if c0 =? 0xF4 then in_range 0x80 0x8F c1
  else is_cont c1.

Definition join2 (c0 c1 : N) : N :=
  N.lor (N.shiftl (N.land c0 0x1F) 6) (N.land c1 0x3F).
Definition join3 (c0 c1 c2 : N) : N :=
  N.lor (N.shiftl (N.land c0 0x0F) 12)
        (N.lor (N.shiftl (N.land c1 0x3F) 6) (N.land c2 0x3F)).
Definition join4 (c0 c1 c2 c3 : N) : N :=
  N.lor (N.shiftl (N.land c0 0x07) 18)
        (N.lor (N.shiftl (N.land c1 0x3F) 12)
               (N.lor (N.shiftl (N.land c2 0x3F) 6) (N.land c3 0x3F))).

(** Strict UTF-8 decoding ([bytes.decode('utf-8')]); [None] stands for
    [UnicodeDecodeError]. *)
Fixpoint utf8_decode (bs : list byte) : option pystr :=
  match bs with
  | [] => Some []
  | b0 :: r0 =>
    let c0 := Byte.to_N b0 in
    if c0 <? 0x80 then cons c0 <$> utf8_decode r0
    else
      match r0 with
      | [] => None
      | b1 :: r1 =>
        let c1 := Byte.to_N b1 in
        if in_range 0xC2 0xDF c0 then
          if is_cont c1 then cons (join2 c0 c1) <$> utf8_decode r1 else None
        else
          match r1 with
          | [] => None
          | b2 :: r2 =>
            let c2 := Byte.to_N b2 in
            if in_range 0xE0 0xEF c0 then
              if second_ok c0 c1 && is_cont c2
              then cons (join3 c0 c1 c2) <$> utf8_decode r2 else None
            else
              match r2 with
              | [] => None
              | b3 :: r3 =>
                let c3 := Byte.to_N b3 in
                if in_range 0xF0 0xF4 c0 then
                  if second_ok c0 c1 && is_cont c2 && is_cont c3
                  then cons (join4 c0 c1 c2 c3) <$> utf8_decode r3 else None
                else None
              end
          end
      end
  end.

(** A string literal of the source file (which is UTF-8 encoded). *)
Definition u (s : string) : pystr :=
  default [] (utf8_decode (String.list_byte_of_string s)).

(** [s * n] on strings. *)
Definition str_mul (s : pystr) (n : nat) : pystr := concat (replicate n s).

(** [str(n)] for a non-negative integer, as an f-string field formats it. *)
Definition str_of_int (n : nat) : pystr :=
  map Byte.to_N (String.list_byte_of_string (NilEmpty.string_of_uint (Nat.to_uint n))).

(** [len(s)]. *)
Definition len (s : pystr) : nat := length s.

(** The characters [str.strip()] removes: those for which [str.isspace]
    holds. *)
Definition isspace (c : codepoint) : bool :=
  in_range 0x09 0x0D c || in_range 0x1C 0x20 c || (c =? 0x85) || (c =? 0xA0)
  || (c =? 0x1680) || in_range 0x2000 0x200A c || (c =? 0x2028)
  || (c =? 0x2029) || (c =? 0x202F) || (c =? 0x205F) || (c =? 0x3000).

Fixpoint lstrip (s : pystr) : pystr :=
  match s with
  | [] => []
  | c :: t => if isspace c then lstrip t else s
  end.

Definition rstrip (s : pystr) : pystr := rev (lstrip (rev s)).

Definition strip (s : pystr) : pystr := rstrip (lstrip s).

(** Truth value of a string: [not s] holds for the empty string only. *)
Definition py_not (s : pystr) : bool :=
  match s with [] => true | _ :: _ => false end.

(** Universal-newline translation, applied by a file opened in text mode
    with the default [newline=None]: CR LF and a lone CR are read as LF. *)
Fixpoint universal_newlines (s : pystr) : pystr :=
  match s with
  | [] => []
  | c :: t =>
    if c =? 13 then
      10 :: match t with
            | [] => []
            | d :: t' => if d =? 10 then universal_newlines t'
                         else universal_newlines t
            end
    else c :: universal_newlines t
  end.

(** [q in s] for strings. *)
Definition contains (s q : pystr) : Prop :=
  exists pre post, s = pre ++ q ++ post.

(** ** Exceptions *)

(** The exception classes that matter to [except Exception]: the three
    built-in classes that derive from [BaseException] only, the built-in
    errors the program's own calls raise, and any other class on either
    side of [Exception]. *)
Inductive pyclass :=
  | KeyboardInterrupt
  | SystemExit
  | GeneratorExit
  | OtherBaseException (name : string)
  | EOFError
  | FileNotFoundError
  | IsADirectoryError
  | UnicodeDecodeError
  | OtherException (name : string).

(** An exception object: its class and [str(e)]. *)
Record exn := { exn_class : pyclass; exn_str : pystr }.

(** [isinstance(e, Exception)]. *)
Definition isinstance_Exception (e : exn) : bool :=
  match exn_class e with
  | KeyboardInterrupt | SystemExit | GeneratorExit | OtherBaseException _ => false
  | _ => true
  end.

Inductive Outcome (A : Type) :=
  | Returns (a : A)
  | Raises (e : exn).
Arguments Returns {A} a.
Arguments Raises {A} e.

(** ** The framework's objects

    The keyword arguments the program passes to the framework's
    constructors. *)

Inductive Tool :=
  | FileReadTool (file_path : pystr)
  | FileWriterTool.

Record Agent := {
  role : pystr;
  goal : pystr;
  backstory : pystr;
  verbose : bool;
  allow_delegation : bool;
  tools : list Tool
}.

Record Task := {
  description : pystr;
  expected_output : pystr;
  agent : Agent
}.

(** [Process.sequential] is the only member the program uses. *)
Inductive Process := sequential.

Record Crew := {
  agents : list Agent;
  tasks : list Task;
  process : Process;
  crew_verbose : bool
}.

(** ** The world *)

Inductive node :=
  | File (data : list byte)
  | Directory.

(** What the framework does while [kickoff] runs, as far as it can be
    observed from outside. *)
Inductive fw_event :=
  | TaskStarted (t : Task) (context : option pystr)
  | TaskFinished (t : Task) (output : pystr)
  | TaskFailed (t : Task) (e : exn)
  | FwOutput (text : pystr).

(** The log of a run: what the program writes to the console and every call
    it makes into the framework, with the answer it got. *)
Inductive event :=
  | EvPrint (text : pystr)                      (* [print(text)]: the text and a newline *)
  | EvPrompt (text : pystr)                     (* the prompt [input(text)] writes *)
  | EvInput (answer : Outcome pystr)            (* what [input] returned or raised *)
  | EvNewTool (t : Tool) (rejected : option exn)
  | EvNewAgent (a : Agent) (rejected : option exn)
  | EvNewTask (t : Task) (rejected : option exn)
  | EvNewCrew (c : Crew) (rejected : option exn)
  | EvKickoff (c : Crew)                        (* [c.kickoff()] is entered *)
  | EvFw (e : fw_event)                         (* the framework at work *)
  | EvKickoffEnd (result : Outcome pystr).      (* [kickoff] returned or raised *)

Record World := {
  stdin : list pystr;           (* the lines still to be read; [] is end of file *)
  fs : gmap pystr node;         (* the working directory *)
  log : list event              (* everything observable so far, oldest first *)
}.

(** The result of one [Crew.kickoff()] call. *)
Record KickoffRun := {
  ko_log : list fw_event;
  ko_fs : gmap pystr node;
  ko_result : Outcome pystr     (* [str(result)], or the exception raised *)
}.

(** The framework, seen from the program: each constructor accepts its
    arguments or raises, and [kickoff] runs against the file system. *)
Record Framework := {
  Tool_init : Tool -> option exn;
  Agent_init : Agent -> option exn;
  Task_init : Task -> option exn;
  Crew_init : Crew -> option exn;
  Crew_kickoff : Crew -> gmap pystr node -> KickoffRun
}.

(** The platform: the codec [open(path, 'r')] decodes with (the locale's
    encoding), which returns the text or raises. *)
Record Platform := {
  locale_decode : list byte -> Outcome pystr
}.

(** ** The monad of the program: state and exceptions *)

Definition M (A : Type) : Type := World -> Outcome A * World.

Definition ret {A} (a : A) : M A := fun w => (Returns a, w).

Definition raise {A} (e : exn) : M A := fun w => (Raises e, w).

Definition bind {A B} (m : M A) (k : A -> M B) : M B :=
  fun w =>
    match m w with
    | (Returns a, w') => k a w'
    | (Raises e, w') => (Raises e, w')
    end.

Declare Scope py_scope.
Delimit Scope py_scope with py.
Notation "x <- m ;; k" := (bind m (fun x => k))
  (at level 100, m at next level, right associativity) : py_scope.
Notation "m ;; k" := (bind m (fun _ => k))
  (at level 100, right associativity) : py_scope.

(** [try: body except Exception as e: handler(e)]. *)
Definition try_except_Exception {A} (body : M A) (handler : exn -> M A) : M A :=
  fun w =>
    match body w with
    | (Returns a, w') => (Returns a, w')
    | (Raises e, w') =>
      if isinstance_Exception e then handler e w' else (Raises e, w')
    end.

Definition emit (ev : event) : M unit :=
  fun w => (Returns tt, {| stdin := stdin w; fs := fs w; log := log w ++ [ev] |}).

(** [print(s)]. *)
Definition print (s : pystr) : M unit := emit (EvPrint s).

(** The exceptions the program's own calls raise. *)
Definition eof_error : exn :=
  {| exn_class := EOFError; exn_str := u"EOF when reading a line" |}.

Definition file_not_found_error (path : pystr) : exn :=
  {| exn_class := FileNotFoundError;
     exn_str := u"[Errno 2] No such file or directory: '" ++ path ++ u"'" |}.

Definition is_a_directory_error (path : pystr) : exn :=
  {| exn_class := IsADirectoryError;
     exn_str := u"[Errno 21] Is a directory: '" ++ path ++ u"'" |}.

(** [input(prompt)]: writes the prompt, reads one line (without its
    newline); at end of file raises [EOFError]. *)
Definition input (prompt : pystr) : M pystr :=
  (emit (EvPrompt prompt) ;;
   fun w =>
     match stdin w with
     | [] =>
       (Raises eof_error,
        {| stdin := []; fs := fs w; log := log w ++ [EvInput (Raises eof_error)] |})
     | line :: rest =>
       (Returns line,
        {| stdin := rest; fs := fs w; log := log w ++ [EvInput (Returns line)] |})
     end)%py.

(** [os.path.exists(path)]: true for a file and for a directory. *)
Definition os_path_exists (path : pystr) : M bool :=
  fun w => (Returns (match fs w !! path with Some _ => true | None => false end), w).

Section Program.

Context (fw : Framework) (pf : Platform).

(** [with open(path, 'r') as f: content = f.read()]. *)
Definition open_read (path : pystr) : M pystr :=
  fun w =>
    match fs w !! path with
    | None => (Raises (file_not_found_error path), w)
    | Some Directory => (Raises (is_a_directory_error path), w)
    | Some (File data) =>
      match locale_decode pf data with
      | Returns text => (Returns (universal_newlines text), w)
      | Raises e => (Raises e, w)
      end
    end.

(** A constructor call: the object, unless the framework rejects the
    arguments. *)
Definition construct {A} (check : A -> option exn) (ev : A -> option exn -> event)
    (a : A) : M A :=
  fun w =>
    let w' := {| stdin := stdin w; fs := fs w; log := log w ++ [ev a (check a)] |} in
    match check a with
    | None => (Returns a, w')
    | Some e => (Raises e, w')
    end.

Definition new_Tool : Tool -> M Tool := construct (Tool_init fw) EvNewTool.
Definition new_Agent : Agent -> M Agent := construct (Agent_init fw) EvNewAgent.
Definition new_Task : Task -> M Task := construct (Task_init fw) EvNewTask.
Definition new_Crew : Crew -> M Crew := construct (Crew_init fw) EvNewCrew.

(** [crew.kickoff()]. *)
Definition kickoff (c : Crew) : M pystr :=
  fun w =>
    let r := Crew_kickoff fw c (fs w) in
    (ko_result r,
     {| stdin := stdin w; fs := ko_fs r;
        log := log w ++ [EvKickoff c] ++ (EvFw <$> ko_log r) ++ [EvKickoffEnd (ko_result r)] |}).

Local Open Scope py_scope.

(** ** The program *)

(** The keyword arguments of the [Agent(...)] call in [create_twin_agent],
    given the tool it constructs. *)
Definition twin_agent (tool : Tool) : Agent :=
  {| role := u"The little me of myself";
     goal := u"Provide short paragraph about the question asked on Johnson behalf given his information";
     backstory := u"You are Johnson Wang, a Harvard masters student in Computational Biology and Data Science, 
        with a strong background in mathematics, biochemistry, and computer science. 
        You have hands-on experience with large language models (LoRA, RAG) and multimodal learning (VLM + Adapter for short-video tagging). 
        You are driven to apply AI methods to real-world biomedical and multimodal problems, and you value clear, rigorous, 
        yet approachable communication in your answers.";
     verbose := true;
     allow_delegation := false;
     tools := [tool] |}.

Definition create_twin_agent : M Agent :=
  tool <- new_Tool (FileReadTool (u"./information.txt")) ;;
  new_Agent (twin_agent tool).

(** The keyword arguments of the [Agent(...)] call in [create_writer_agent]. *)
Definition writer_agent (tool : Tool) : Agent :=
  {| role := u"Formal Response Writer";
     goal := u"Take a draft first-person response and produce a concise, formal, and polished reply suitable for sending";
     backstory := u"You are a professional writer who helps Johnson Wang communicate. 
        Make sure the final response sounds polished but still personal, with Johnson's own voice: 
        curious, analytical, but approachable. Keep it clear, avoid excessive jargon, 
        and highlight Johnson's unique AI+biology background when possible.";
     verbose := true;
     allow_delegation := false;
     tools := [tool] |}.

Definition create_writer_agent : M Agent :=
  tool <- new_Tool FileWriterTool ;;
  new_Agent (writer_agent tool).

(** The text of the research task's description after the question. *)
Definition research_instructions : pystr :=
  u"

        Your task (on behalf of Johnson Wang):
        1. Read `information.txt` to learn Johnson's background and perspective.
        2. The answer must explicitly reference Johnson's background (Harvard master's in AI + biology, math/CS training).
        3. Where relevant, connect to Johnson's projects and experiences.
        4. Provide a short supporting paragraph (3-4 sentences) that explains the reasoning or details.

        Keep the reply honest, try not to invent ideas that is out of the scope of Johnson's knowledge (PhD level knowledge).
        ".

(** The keyword arguments of the [Task(...)] call in
    [create_johnson_response_task]. *)
Definition johnson_response_task (agent : Agent) (question : pystr) : Task :=
  {| description := u"Question: " ++ question ++ research_instructions;
     expected_output := u"A short structured text containing the the answer to the question
        ";
     agent := agent |}.

Definition create_johnson_response_task (agent : Agent) (question : pystr) : M Task :=
  new_Task (johnson_response_task agent question).

(** The keyword arguments of the [Task(...)] call in [create_writing_task]. *)
Definition writing_task (agent : Agent) : Task :=
  {| description := u"You are given a short draft response (from Johnson's twin agent).
        
        1. Convert the draft into a concise, formal, first-person reply (2-4 sentences).
        2. Preserve the factual content and citations from the draft; do not invent facts.
        3. Optionally provide a single short formal context paragraph if needed.
        4. Save the final reply as 'johnson_reply.md' and return a short confirmation.";
     expected_output := u"A formal first-person reply saved to 'johnson_reply.md' and a short status message.";
     agent := agent |}.

Definition create_writing_task (agent : Agent) : M Task :=
  new_Task (writing_task agent).

Definition default_question : pystr := u"Explain my background in 3 sentences".

Definition main : M unit :=
  print (u"🚀 Welcome to Chat use Johnson - a master student at Harvard studying AI and biology") ;;
  print (str_mul (u"=") 50) ;;
  question <- input (u"Enter a question you'd like Johnson to answer: ") ;;
  question <- (if py_not (strip question)
               then (let question := default_question in
                     print (u"Using default question: " ++ question) ;;
                     ret question)
               else ret question) ;;
  print (u"
📚 Question: " ++ question) ;;
  print (str_mul (u"=") 50) ;;
  print (u"
🤖 Creating AI agents...") ;;
  researcher <- create_twin_agent ;;
  writer <- create_writer_agent ;;
  print (u"📋 Setting up tasks...") ;;
  research_task <- create_johnson_response_task researcher question ;;
  writing_task <- create_writing_task writer ;;
  print (u"👥 Assembling the crew...") ;;
  crew <- new_Crew
            {| agents := [researcher; writer];
               tasks := [research_task; writing_task];
               process := sequential;
               crew_verbose := true |} ;;
  print (u"
🎯 Starting crew execution...") ;;
  print (str_mul (u"=") 50) ;;
  try_except_Exception
    (result <- kickoff crew ;;
     print (u"
✅ Crew execution completed!") ;;
     print (str_mul (u"=") 50) ;;
     print (u"📄 Final Result:") ;;
     print result ;;
     found <- os_path_exists (u"johnson_reply.md") ;;
     if found : bool then
       print (u"
📝 Reply successfully saved to 'johnson_reply.md'") ;;
       content <- open_read (u"johnson_reply.md") ;;
       print (u"📊 Reply length: " ++ str_of_int (len content) ++ u" characters")
     else
       print (u"
⚠️  No output file found. The agents may not have used the file tools."))
    (fun e =>
       print (u"
❌ An error occurred: " ++ exn_str e) ;;
       print (u"
💡 Note: This example requires valid API keys to function properly.") ;;
       print (u"Please set your OPENAI_API_KEY environment variable.")).

(** A run of the program from a fresh world. *)
Definition run (lines : list pystr) (files : gmap pystr node) : Outcome unit * World :=
  main {| stdin := lines; fs := files; log := [] |}.

End Program.

(** ** The sequential orchestrator *)

(** Modelled from the spec: the orchestrator ([Crew.kickoff] under
    [Process.sequential]) is supplied by the external framework and is not
    in the repository.  The spec describes it as a state machine: it runs
    task 1, and only after task 1 completes runs task 2 with the output of
    task 1 as context; a failure of either task aborts the run and is raised
    to the caller; there is no retry and no re-ordering; the final output is
    that of the last task.  [execute] stands for one agent working on one
    task (the language model and the agent's tools): it returns the task's
    output or raises, may change files, and may write progress text. *)
Record Backend := {
  execute : Task -> option pystr -> gmap pystr node ->
            Outcome pystr * gmap pystr node * list pystr
}.

(** Modelled from the spec: the states of the orchestrator are the calls of
    this function ([pending] is what is still to run, [context] the output
    of the task before); it ends in Done (no task left) or Failed. *)
Fixpoint run_sequential (be : Backend) (pending : list Task) (context : option pystr)
    (files : gmap pystr node) : KickoffRun :=
  match pending with
  | [] =>
    {| ko_log := []; ko_fs := files; ko_result := Returns (default [] context) |}
  | t :: pending' =>
    match execute be t context files with
    | (Returns output, files', progress) =>
      let r := run_sequential be pending' (Some output) files' in
      {| ko_log := TaskStarted t context :: (FwOutput <$> progress)
                     ++ TaskFinished t output :: ko_log r;
         ko_fs := ko_fs r;
         ko_result := ko_result r |}
    | (Raises e, files', progress) =>
      {| ko_log := TaskStarted t context :: (FwOutput <$> progress)
                     ++ [TaskFailed t e];
         ko_fs := files';
         ko_result := Raises e |}
    end
  end.

(** Modelled from the spec: [kickoff] of a crew starts the machine on the
    crew's tasks, in their order, with no context. *)
Definition sequential_kickoff (be : Backend) (c : Crew) (files : gmap pystr node)
    : KickoffRun :=
  match process c with
  | sequential => run_sequential be (tasks c) None files
  end.

(** A framework whose [kickoff] is the sequential orchestrator over [be]. *)
Definition orchestrated (fw : Framework) (be : Backend) : Framework :=
  {| Tool_init := Tool_init fw;
     Agent_init := Agent_init fw;
     Task_init := Task_init fw;
     Crew_init := Crew_init fw;
     Crew_kickoff := sequential_kickoff be |}.

(** The task events of a log, in order. *)
Definition task_event (ev : event) : option fw_event :=
  match ev with
  | EvFw (TaskStarted t c) => Some (TaskStarted t c)
  | EvFw (TaskFinished t o) => Some (TaskFinished t o)
  | EvFw (TaskFailed t e) => Some (TaskFailed t e)
  | _ => None
  end.

Fixpoint task_events (l : list event) : list fw_event :=
  match l with
  | [] => []
  | ev :: l' =>
    match task_event ev with
    | Some x => x :: task_events l'
    | None => task_events l'
    end
  end.

(** The runs of the machine on a list of tasks, as sequences of task
    events. *)
Inductive sequential_trace : list Task -> option pystr -> list fw_event -> Prop :=
  | trace_done context :
      sequential_trace [] context []
  | trace_failed t pending context e :
      sequential_trace (t :: pending) context [TaskStarted t context; TaskFailed t e]
  | trace_step t pending context output l :
      sequential_trace pending (Some output) l ->
      sequential_trace (t :: pending) context
        (TaskStarted t context :: TaskFinished t output :: l).

(** ** Names for what the claims talk about *)

Definition reply_path : pystr := u"johnson_reply.md".

Definition persona_role : pystr := u"The little me of myself".
Definition editor_role : pystr := u"Formal Response Writer".

Definition question_banner (question : pystr) : pystr := u"
📚 Question: " ++ question.

Definition using_default_message : pystr :=
  u"Using default question: Explain my background in 3 sentences".

Definition saved_message : pystr := u"
📝 Reply successfully saved to 'johnson_reply.md'".

Definition no_output_warning : pystr := u"
⚠️  No output file found. The agents may not have used the file tools.".

(** What follows a [kickoff] that returned [result], up to the check for
    the reply file. *)
Definition result_report (result : pystr) : list event :=
  [EvKickoffEnd (Returns result);
   EvPrint (u"
✅ Crew execution completed!");
   EvPrint (str_mul (u"=") 50);
   EvPrint (u"📄 Final Result:");
   EvPrint result].

(** The line that reports the length [n]. *)
Definition length_report (n : nat) : pystr :=
  u"📊 Reply length: " ++ str_of_int n ++ u" characters".

(** What the handler prints for the exception [e]: the diagnostic and the
    hint about the credentials. *)
Definition handler_output (e : exn) : list event :=
  [EvPrint (u"
❌ An error occurred: " ++ exn_str e);
   EvPrint (u"
💡 Note: This example requires valid API keys to function properly.");
   EvPrint (u"Please set your OPENAI_API_KEY environment variable.")].

(** The exception a logged call raised, if it is one of the calls made
    before the [try] statement: [input] and the framework's constructors. *)
Definition rejection (ev : event) : option exn :=
  match ev with
  | EvInput (Raises e) => Some e
  | EvNewTool _ rejected => rejected
  | EvNewAgent _ rejected => rejected
  | EvNewTask _ rejected => rejected
  | EvNewCrew _ rejected => rejected
  | _ => None
  end.

(** [e] was raised before the [try] statement. *)
Definition raised_in_setup (l : list event) (e : exn) : Prop :=
  exists ev, ev ∈ l /\ rejection ev = Some e.

(** ** Concrete worlds *)

(** The platform whose text files are UTF-8 (the message of the decoding
    error is shortened: it does not name the offending byte). *)
Definition utf8_platform : Platform :=
  {| locale_decode := fun data =>
       match utf8_decode data with
       | Some text => Returns text
       | None => Raises {| exn_class := UnicodeDecodeError;
                           exn_str := u"'utf-8' codec can't decode bytes" |}
       end |}.

(** A framework that accepts every constructor call and whose [kickoff]
    is [k]. *)
Definition scripted (k : Crew -> gmap pystr node -> KickoffRun) : Framework :=
  {| Tool_init := fun _ => None;
     Agent_init := fun _ => None;
     Task_init := fun _ => None;
     Crew_init := fun _ => None;
     Crew_kickoff := k |}.

(** [kickoff] returns [result] and leaves the files alone. *)
Definition fw_idle (result : pystr) : Framework :=
  scripted (fun _ files =>
    {| ko_log := []; ko_fs := files; ko_result := Returns result |}).

(** [kickoff] stores [n] under [johnson_reply.md] and returns [result]. *)
Definition fw_writes (n : node) (result : pystr) : Framework :=
  scripted (fun _ files =>
    {| ko_log := []; ko_fs := <[reply_path := n]> files; ko_result := Returns result |}).

(** [kickoff] raises [e]. *)
Definition fw_raises (e : exn) : Framework :=
  scripted (fun _ files =>
    {| ko_log := []; ko_fs := files; ko_result := Raises e |}).

(** A framework that rejects every [Task(...)] call with [e]. *)
Definition fw_rejects_tasks (e : exn) : Framework :=
  {| Tool_init := fun _ => None;
     Agent_init := fun _ => None;
     Task_init := fun _ => Some e;
     Crew_init := fun _ => None;
     Crew_kickoff := fun _ files =>
       {| ko_log := []; ko_fs := files; ko_result := Returns [] |} |}.

(** A backend in which the persona drafts [draft] and the editor stores the
    bytes [reply] under [johnson_reply.md] and confirms with [status]. *)
Definition scripted_backend (draft : pystr) (reply : list byte) (status : pystr)
    : Backend :=
  {| execute := fun t context files =>
       match tools (agent t) with
       | [FileWriterTool] => (Returns status, <[reply_path := File reply]> files, [])
       | _ => (Returns draft, files, [])
       end |}.

(** ** Concrete runs *)

Definition a_question : pystr := u"What did you study?".

(** The orchestrator returns and writes no file. *)
Abbreviation run_without_file :=
  (run (fw_idle (u"Done.")) utf8_platform [a_question] ∅).

(** The editor saves an empty file. *)
Abbreviation run_empty_reply :=
  (run (fw_writes (File []) (u"Saved.")) utf8_platform [a_question] ∅).

(** The editor saves a reply with a dash outside ASCII: 14 bytes, 12
    characters. *)
Definition dashed_reply : list byte := String.list_byte_of_string "AI — biology".

Abbreviation run_dashed_reply :=
  (run (fw_writes (File dashed_reply) (u"Saved.")) utf8_platform [a_question] ∅).

(** [johnson_reply.md] is a directory. *)
Abbreviation run_reply_is_directory :=
  (run (fw_writes Directory (u"Saved.")) utf8_platform [a_question] ∅).

(** The provider rejects the credentials. *)
Definition api_error : exn :=
  {| exn_class := OtherException "AuthenticationError";
     exn_str := u"Incorrect API key provided" |}.

Abbreviation run_api_error :=
  (run (fw_raises api_error) utf8_platform [a_question] ∅).

(** The user interrupts the orchestrator with Ctrl-C. *)
Definition keyboard_interrupt : exn :=
  {| exn_class := KeyboardInterrupt; exn_str := [] |}.

Abbreviation run_interrupted :=
  (run (fw_raises keyboard_interrupt) utf8_platform [a_question] ∅).

(** Standard input is at end of file. *)
Abbreviation run_at_eof :=
  (run (fw_idle (u"Done.")) utf8_platform [] ∅).

(** The framework rejects the tasks. *)
Abbreviation run_tasks_rejected :=
  (run (fw_rejects_tasks api_error) utf8_platform [a_question] ∅).

(** A question with blanks around it, and a blank one. *)
Definition padded_question : pystr := u"  What did you study?  ".
Definition blank_question : pystr := u"   ".

Abbreviation run_padded :=
  (run (fw_idle (u"Done.")) utf8_platform [padded_question] ∅).

(** ** The framework calls of a run *)

(** The calls into the framework among the events of a log. *)
Definition is_call (ev : event) : bool :=
  match ev with
  | EvNewTool _ _ | EvNewAgent _ _ | EvNewTask _ _ | EvNewCrew _ _
  | EvKickoff _ => true
  | _ => false
  end.

Fixpoint calls (l : list event) : list event :=
  match l with
  | [] => []
  | ev :: l' => if is_call ev then ev :: calls l' else calls l'
  end.

(** The crews on which [kickoff] was entered. *)
Fixpoint kickoffs (l : list event) : list Crew :=
  match l with
  | [] => []
  | EvKickoff c :: l' => c :: kickoffs l'
  | _ :: l' => kickoffs l'
  end.

(** The question [main] goes on with after reading the line [q]. *)
Definition effective_question (q : pystr) : pystr :=
  if py_not (strip q) then default_question else q.

(** The objects [main] builds for a question, under the names of its local
    variables, when every constructor accepts. *)
Definition researcher : Agent := twin_agent (FileReadTool (u"./information.txt")).

Definition writer : Agent := writer_agent FileWriterTool.

Definition the_crew (question : pystr) : Crew :=
  {| agents := [researcher; writer];
     tasks := [johnson_response_task researcher question; writing_task writer];
     process := sequential;
     crew_verbose := true |}.

(** The constructor calls of [main], in the order of the source, all
    accepted. *)
Definition setup_calls (question : pystr) : list event :=
  [EvNewTool (FileReadTool (u"./information.txt")) None;
   EvNewAgent researcher None;
   EvNewTool FileWriterTool None;
   EvNewAgent writer None;
   EvNewTask (johnson_response_task researcher question) None;
   EvNewTask (writing_task writer) None;
   EvNewCrew (the_crew question) None].

(** What [main] prints, and what it reads, up to the question banner, for a
    question that is not blank. *)
Definition asking (q : pystr) : list event :=
  [EvPrint (u"🚀 Welcome to Chat use Johnson - a master student at Harvard studying AI and biology");
   EvPrint (str_mul (u"=") 50);
   EvPrompt (u"Enter a question you'd like Johnson to answer: ");
   EvInput (Returns q);
   EvPrint (question_banner q)].

(** A reply file that is not valid UTF-8. *)
Definition undecodable_reply : list byte := [x80%byte; xff%byte].

Definition undecodable_error : exn :=
  {| exn_class := UnicodeDecodeError;
     exn_str := u"'utf-8' codec can't decode bytes" |}.

Abbreviation run_undecodable_reply :=
  (run (fw_writes (File undecodable_reply) (u"Saved.")) utf8_platform [a_question] ∅).

Local Open Scope nat_scope.

(** ** Facts about Python text *)

Lemma lstrip_nil s : lstrip s = [] <-> forallb isspace s = true.
Proof.
  induction s as [|c t IH]; simpl; [done|].
  destruct (isspace c); simpl; [done|]. split; discriminate.
Qed.

Lemma lstrip_head c t s : lstrip s = c :: t -> isspace c = false.
Proof.
  induction s as [|d s IH]; simpl; [discriminate|].
  destruct (isspace d) eqn:Hd; [done|]. intros [= <- _]. done.
Qed.

Lemma forallb_rev {A} (f : A -> bool) l : forallb f (rev l) = forallb f l.
Proof.
  induction l as [|a l IH]; simpl; [done|].
  rewrite forallb_app, IH. simpl. rewrite andb_true_r. apply andb_comm.
Qed.

(** [not question.strip()] holds exactly when every character of the
    question is whitespace (the empty question included). *)
Lemma blank_test q : py_not (strip q) = forallb isspace q.
Proof.
  unfold strip, rstrip.
  destruct (lstrip q) as [|c t] eqn:Hl.
  - simpl. symmetry. by apply lstrip_nil.
  - assert (forallb isspace q = false) as ->.
    { apply not_true_is_false. intros H. apply lstrip_nil in H. congruence. }
    apply lstrip_head in Hl as Hc.
    destruct (lstrip (rev (c :: t))) as [|d r] eqn:Hr.
    + apply lstrip_nil in Hr. rewrite forallb_rev in Hr. simpl in Hr.
      rewrite Hc in Hr. discriminate.
    + simpl. destruct (rev r ++ [d]) eqn:E; [|done].
      by apply app_eq_nil in E as [_ ?].
Qed.

Lemma universal_newlines_length s : length (universal_newlines s) <= length s.
Proof.
  remember (length s) as n eqn:Hn. revert s Hn.
  induction n as [n IH] using lt_wf_ind. intros s ->.
  destruct s as [|c t]; simpl; [done|].
  destruct (c =? 13)%N.
  - destruct t as [|d t']; simpl; [lia|].
    destruct (d =? 10)%N.
    + specialize (IH (length t') ltac:(simpl; lia) t' eq_refl). lia.
    + specialize (IH (length (d :: t')) ltac:(simpl; lia) (d :: t') eq_refl).
      simpl in IH. lia.
  - specialize (IH (length t) ltac:(simpl; lia) t eq_refl). simpl. lia.
Qed.

Lemma universal_newlines_nil s : universal_newlines s = [] -> s = [].
Proof. destruct s as [|c t]; simpl; [done|]. by destruct (c =? 13)%N. Qed.

Lemma universal_newlines_no_cr s :
  Forall (fun c => c <> 13%N) s -> universal_newlines s = s.
Proof.
  induction 1 as [|c t Hc _ IH]; simpl; [done|].
  destruct (N.eqb_spec c 13); [done|]. by rewrite IH.
Qed.

Lemma fmap_cons_length (c : codepoint) (o : option pystr) s n :
  cons c <$> o = Some s -> (forall s', o = Some s' -> length s' <= n) ->
  length s <= S n.
Proof.
  destruct o as [s'|]; simpl; [|discriminate].
  intros [= <-] H. simpl. specialize (H s' eq_refl). lia.
Qed.

Lemma utf8_decode_length data text :
  utf8_decode data = Some text -> length text <= length data.
Proof.
  remember (length data) as n eqn:Hn. revert data text Hn.
  induction n as [n IH] using lt_wf_ind. intros data text -> H.
  destruct data as [|b0 r0]; [by injection H as <-|].
  cbn [utf8_decode] in H. cbv zeta in H.
  repeat match type of H with
  | (if ?b then _ else _) = _ => destruct b
  | match ?l with [] => _ | _ :: _ => _ end = _ => destruct l
  | None = Some _ => discriminate H
  end.
  all: match type of H with
       | cons _ <$> utf8_decode ?r = _ =>
         apply (fmap_cons_length _ _ _ (length r)) in H;
         [ simpl in *; lia
         | intros s' Hs'; apply (IH (length r)) with (data := r);
           [simpl; lia | done | done] ]
       end.
Qed.

Lemma utf8_decode_nil data : utf8_decode data = Some [] -> data = [].
Proof.
  destruct data as [|b0 r0]; [done|]. intros H. exfalso.
  cbn [utf8_decode] in H. cbv zeta in H.
  repeat match type of H with
  | (if ?b then _ else _) = _ => destruct b
  | match ?l with [] => _ | _ :: _ => _ end = _ => destruct l
  | None = Some _ => discriminate H
  end.
  all: match type of H with
       | cons _ <$> ?o = _ => destruct o; discriminate H
       end.
Qed.

Lemma utf8_decode_ascii data :
  Forall (fun b => (Byte.to_N b < 0x80)%N) data ->
  utf8_decode data = Some (Byte.to_N <$> data).
Proof.
  induction 1 as [|b t Hb _ IH]; [done|].
  cbn [utf8_decode]. cbv zeta. apply N.ltb_lt in Hb. rewrite Hb, IH. done.
Qed.

(** What text mode makes of a UTF-8 file: no more characters than bytes,
    none only for the empty file, and as many as bytes for ASCII text
    without carriage returns. *)
Lemma utf8_text_length data text :
  utf8_decode data = Some text ->
  len (universal_newlines text) <= length data
  /\ (len (universal_newlines text) = 0 <-> data = [])
  /\ (Forall (fun b => (Byte.to_N b < 0x80)%N /\ Byte.to_N b <> 13%N) data ->
      len (universal_newlines text) = length data).
Proof.
  intros H. unfold len. split; [|split].
  - pose proof (universal_newlines_length text).
    pose proof (utf8_decode_length _ _ H). lia.
  - split.
    + intros H0. apply length_zero_iff_nil, universal_newlines_nil in H0.
      subst. by apply utf8_decode_nil.
    + intros ->. by injection H as <-.
  - intros Ha. rewrite utf8_decode_ascii in H.
    + injection H as <-. rewrite universal_newlines_no_cr.
      * by rewrite length_fmap.
      * apply Forall_fmap. eapply Forall_impl; [exact Ha|]. by intros b [_ ?].
    + eapply Forall_impl; [exact Ha|]. by intros b [? _].
Qed.

Lemma utf8_platform_raises_errors data e :
  locale_decode utf8_platform data = Raises e -> isinstance_Exception e = true.
Proof.
  cbn [locale_decode utf8_platform].
  destruct (utf8_decode data); [discriminate|]. by intros [= <-].
Qed.

(** ** Symbolic execution of a run *)

Lemma agent_johnson_response_task a q : agent (johnson_response_task a q) = a.
Proof. reflexivity. Qed.

Lemma description_johnson_response_task a q :
  description (johnson_response_task a q) = u"Question: " ++ q ++ research_instructions.
Proof. reflexivity. Qed.

Lemma agent_writing_task a : agent (writing_task a) = a.
Proof. reflexivity. Qed.

Lemma role_twin_agent t : role (twin_agent t) = persona_role.
Proof. reflexivity. Qed.

Lemma role_writer_agent t : role (writer_agent t) = editor_role.
Proof. reflexivity. Qed.

Lemma roles_differ : editor_role <> persona_role.
Proof. vm_compute. discriminate. Qed.

Lemma length_report_0 : length_report 0 = u"📊 Reply length: 0 characters".
Proof. vm_compute. reflexivity. Qed.

Lemma using_default_eq :
  u"Using default question: " ++ default_question = using_default_message.
Proof. vm_compute. reflexivity. Qed.

Lemma default_question_not_blank : py_not (strip default_question) = false.
Proof. vm_compute. reflexivity. Qed.

Opaque u str_mul strip str_of_int universal_newlines utf8_decode
       default_question research_instructions
       twin_agent writer_agent johnson_response_task writing_task.

Ltac exec_in H :=
  cbv beta iota zeta delta
    [run main bind ret raise print emit input construct kickoff try_except_Exception
     os_path_exists open_read create_twin_agent create_writer_agent
     create_johnson_response_task create_writing_task new_Tool new_Agent new_Task
     new_Crew stdin fs log py_not fst snd] in H.

Ltac step_in H :=
  exec_in H;
  match type of H with
  | context [match ?x with _ => _ end] =>
      lazymatch x with
      | context [match _ with _ => _ end] => fail
      | _ => destruct x eqn:?
      end
  end.

(** Every way a run can go, one goal each; [HR] is the equation that
    names the run. *)
Ltac run_cases HR :=
  repeat step_in HR; exec_in HR;
  injection HR as <- <-;
  cbn [fst snd log fs stdin app];
  rewrite <- ?app_assoc; cbn [app];
  change (u "johnson_reply.md") with reply_path in *;
  try match goal with
      | H : isinstance_Exception (is_a_directory_error _) = false |- _ =>
        exfalso; vm_compute in H; discriminate H
      end.

Ltac elim_in H :=
  repeat match type of H with
  | _ ∈ [] => apply elem_of_nil in H; destruct H
  | _ ∈ _ :: _ => apply elem_of_cons in H; destruct H as [H|H]; [try discriminate H|]
  | _ ∈ _ ++ _ => apply elem_of_app in H; destruct H as [H|H]
  | _ ∈ _ <$> _ => apply list_elem_of_fmap in H; destruct H as (? & H & ?); try discriminate H
  end.

Ltac ends_with :=
  repeat first [ apply suffix_app_r | reflexivity | apply suffix_cons_r ].

Ltac find_in :=
  repeat first [ apply list_elem_of_here | apply list_elem_of_further
               | apply elem_of_app; right ].

(** Facts about a concrete run, by evaluation. *)
Ltac in_log := vm_compute; find_in.

Ltac log_ends := vm_compute; ends_with.

Ltac not_in_log H :=
  apply list_elem_of_In in H; vm_compute in H;
  repeat (destruct H as [H|H]; [discriminate H|]); destruct H.

(** ** The sequential orchestrator *)

Lemma task_events_app l1 l2 :
  task_events (l1 ++ l2) = task_events l1 ++ task_events l2.
Proof.
  induction l1 as [|ev l1 IH]; [done|]. cbn [app task_events].
  destruct (task_event ev); by rewrite IH.
Qed.

Lemma task_events_progress (progress : list pystr) :
  task_events (EvFw <$> (FwOutput <$> progress)) = [].
Proof. induction progress as [|s l IH]; [done|]. exact IH. Qed.

(** Every run of the orchestrator is a sequential trace of its tasks. *)
Lemma run_sequential_trace be pending context files :
  sequential_trace pending context
    (task_events (EvFw <$> ko_log (run_sequential be pending context files))).
Proof.
  revert context files.
  induction pending as [|t pending IH]; intros context files; [constructor|].
  cbn [run_sequential].
  destruct (execute be t context files) as [[[output|e] files'] progress];
    cbn [ko_log]; rewrite fmap_cons, fmap_app; cbn [task_events task_event];
    rewrite task_events_app, task_events_progress; cbn [app].
  - rewrite fmap_cons. cbn [task_events task_event]. constructor. apply IH.
  - cbn [fmap list_fmap task_events task_event]. constructor.
Qed.

(** The three traces of a crew of two tasks. *)
Lemma sequential_trace_two r w l :
  sequential_trace [r; w] None l ->
  (exists e, l = [TaskStarted r None; TaskFailed r e])
  \/ (exists o e, l = [TaskStarted r None; TaskFinished r o;
                       TaskStarted w (Some o); TaskFailed w e])
  \/ (exists o o', l = [TaskStarted r None; TaskFinished r o;
                        TaskStarted w (Some o); TaskFinished w o']).
Proof.
  intros H. inversion H as [| |? ? ? o ? H1]; subst; [left; eauto|].
  right. inversion H1 as [| |? ? ? o' ? H2]; subst; [left; eauto|].
  right. inversion H2; subst. eauto.
Qed.

Lemma contains_question q : contains (u"Question: " ++ q ++ research_instructions) q.
Proof. by exists (u"Question: "), research_instructions. Qed.

(** ** The claims *)



(** C2: for an input question that is empty or all whitespace, the run is
    the run on the default question "Explain my background in 3 sentences"
    (same result, same files, same log after the question is read), with
    one more line on the console: the message that the default is used. *)
Theorem C2_blank_question_runs_as_default fw pf q rest files :
  let Rb := run fw pf (q :: rest) files in
  let Rd := run fw pf (default_question :: rest) files in
  forallb isspace q = true ->
  Rb.1 = Rd.1 /\ fs Rb.2 = fs Rd.2 /\ stdin Rb.2 = stdin Rd.2
  /\ exists pre tail,
       log Rb.2 = pre ++ [EvInput (Returns q); EvPrint using_default_message] ++ tail
       /\ log Rd.2 = pre ++ [EvInput (Returns default_question)] ++ tail.
Proof.
  cbv zeta. rewrite <- blank_test. intros Hq.
  destruct (strip q) eqn:Hsq; [clear Hq|discriminate Hq].
  pose proof default_question_not_blank as Hd.
  destruct (strip default_question) eqn:Hsd; [discriminate Hd|clear Hd].
  destruct (run fw pf (q :: rest) files) as [o1 w1] eqn:HRb.
  destruct (run fw pf (default_question :: rest) files) as [o2 w2] eqn:HRd.
  exec_in HRb. exec_in HRd. rewrite Hsq in HRb. rewrite Hsd in HRd.
  repeat (step_in HRb; exec_in HRd).
  all: exec_in HRb; exec_in HRd.
  all: injection HRb as <- <-; injection HRd as <- <-.
  all: cbn [fst snd log fs stdin app]; rewrite <- ?app_assoc; cbn [app].
  all: rewrite using_default_eq.
  all: split; [reflexivity|split; [reflexivity|split; [reflexivity|]]].
  all: eexists [_; _; _], _; split; reflexivity.
Qed.

Lemma C2_witness :
  forallb isspace blank_question = true
  /\ (run (fw_idle (u"Done.")) utf8_platform [blank_question] ∅).1
     = (run (fw_idle (u"Done.")) utf8_platform [default_question] ∅).1
  /\ fs (run (fw_idle (u"Done.")) utf8_platform [blank_question] ∅).2
     = fs (run (fw_idle (u"Done.")) utf8_platform [default_question] ∅).2
  /\ stdin (run (fw_idle (u"Done.")) utf8_platform [blank_question] ∅).2
     = stdin (run (fw_idle (u"Done.")) utf8_platform [default_question] ∅).2
  /\ exists pre tail,
       log (run (fw_idle (u"Done.")) utf8_platform [blank_question] ∅).2
       = pre ++ [EvInput (Returns blank_question); EvPrint using_default_message] ++ tail
       /\ log (run (fw_idle (u"Done.")) utf8_platform [default_question] ∅).2
          = pre ++ [EvInput (Returns default_question)] ++ tail.
Proof.
  assert (H : forallb isspace blank_question = true) by (vm_compute; reflexivity).
  split; [exact H|].
  exact (C2_blank_question_runs_as_default _ _ _ _ _ H).
Defined.









(** C6: with the sequential orchestrator, the task events of a run are
    none (the orchestrator was not reached) or one of three sequences: the
    research task fails; the research task finishes and the writing task
    starts with the research output as context and fails; or both finish.
    So the writing task starts only after the research task has finished,
    with its output as context, and no task is started twice or out of
    order. *)
Theorem C6_tasks_run_in_sequence fw be pf lines files :
  let R := run (orchestrated fw be) pf lines files in
  let l := task_events (log R.2) in
  l = []
  \/ exists r w,
       role (agent r) = persona_role /\ role (agent w) = editor_role
       /\ ((exists e, l = [TaskStarted r None; TaskFailed r e])
           \/ (exists o e, l = [TaskStarted r None; TaskFinished r o;
                                TaskStarted w (Some o); TaskFailed w e])
           \/ (exists o o', l = [TaskStarted r None; TaskFinished r o;
                                 TaskStarted w (Some o); TaskFinished w o'])).
Proof.
  cbv zeta. destruct (run (orchestrated fw be) pf lines files) as [o w] eqn:HR.
  destruct lines as [|q rest]; run_cases HR.
  all: cbn [task_events task_event].
  all: try (left; reflexivity).
  all: right; rewrite task_events_app; cbn [task_events task_event];
       rewrite app_nil_r.
  all: eexists _, _; (split; [|split]);
       [ | | apply sequential_trace_two, run_sequential_trace ];
       [ apply role_twin_agent | apply role_writer_agent ].
Qed.

Example orchestrated_run :
  task_events
    (log (run (orchestrated (fw_idle []) (scripted_backend (u"Draft.") dashed_reply (u"Saved.")))
              utf8_platform [a_question] ∅).2)
  = [TaskStarted (johnson_response_task (twin_agent (FileReadTool (u"./information.txt"))) a_question) None;
     TaskFinished (johnson_response_task (twin_agent (FileReadTool (u"./information.txt"))) a_question) (u"Draft.");
     TaskStarted (writing_task (writer_agent FileWriterTool)) (Some (u"Draft."));
     TaskFinished (writing_task (writer_agent FileWriterTool)) (u"Saved.")].
Proof. vm_compute. reflexivity. Qed.










(** ** The shape of every run *)

Lemma calls_app l1 l2 : calls (l1 ++ l2) = calls l1 ++ calls l2.
Proof.
  induction l1 as [|ev l1 IH]; [done|]. cbn [app calls].
  destruct (is_call ev); by rewrite IH.
Qed.

Lemma calls_fw (l : list fw_event) : calls (EvFw <$> l) = [].
Proof. induction l as [|x l IH]; [done|]. exact IH. Qed.

Lemma kickoffs_calls l : kickoffs (calls l) = kickoffs l.
Proof.
  induction l as [|ev l IH]; [done|].
  destruct ev; cbn [calls is_call kickoffs]; by rewrite ?IH.
Qed.

Lemma kickoffs_elem_of c l : EvKickoff c ∈ l <-> c ∈ kickoffs l.
Proof.
  induction l as [|ev l IH]; [by rewrite !elem_of_nil|].
  rewrite elem_of_cons, IH.
  destruct ev; cbn [kickoffs]; rewrite ?elem_of_cons; intuition congruence.
Qed.

Lemma last_elem_of {A} (l : list A) x : last l = Some x -> x ∈ l.
Proof.
  intros H. apply last_Some in H as [l' ->]. apply elem_of_app. right.
  apply list_elem_of_here.
Qed.

(** Every run either stops in the setup, on the exception of its last call,
    with no [kickoff] and the files as they were; or makes the seven
    constructor calls and one [kickoff], after which the files are those the
    orchestrator left and nothing but an exception outside [Exception] can
    leave [main].  In both cases exactly one line of input is consumed. *)
Lemma run_structure fw pf lines files :
  let R := run fw pf lines files in
  stdin R.2 = tail lines
  /\ ((kickoffs (log R.2) = [] /\ fs R.2 = files
       /\ exists e ev, R.1 = Raises e /\ last (log R.2) = Some ev
                       /\ rejection ev = Some e)
      \/ (exists q rest question,
            lines = q :: rest /\ question = effective_question q
            /\ calls (log R.2) = setup_calls question ++ [EvKickoff (the_crew question)]
            /\ fs R.2 = ko_fs (Crew_kickoff fw (the_crew question) files)
            /\ (R.1 = Returns tt
                \/ exists e, R.1 = Raises e /\ isinstance_Exception e = false))).
Proof.
  cbv zeta. destruct (run fw pf lines files) as [o w] eqn:HR.
  destruct lines as [|q rest]; run_cases HR.
  all: split; [reflexivity|].
  all: first
    [ left; (split; [reflexivity|]); (split; [reflexivity|]);
      eexists _, _; (split; [reflexivity|]); (split; reflexivity)
    | right; eexists _, _, _; (split; [reflexivity|]);
      (split; [unfold effective_question;
               match goal with H : strip _ = _ |- _ => rewrite H end;
               reflexivity|]);
      cbn [calls is_call];
      rewrite calls_app, calls_fw; cbn [app calls is_call];
      (split; [reflexivity|]); (split; [reflexivity|]);
      first [ left; reflexivity
            | right; eexists; (split; [reflexivity|assumption]) ] ].
Qed.

Lemma suffix_last {A} (l1 l2 : list A) x :
  l1 `suffix_of` l2 -> last l1 = Some x -> last l2 = Some x.
Proof. intros [k ->] H. rewrite last_app. by rewrite H. Qed.

(** The crew [kickoff] is entered on, and what was called before. *)
Lemma kickoff_inv fw pf lines files c :
  EvKickoff c ∈ log (run fw pf lines files).2 ->
  exists q rest,
    lines = q :: rest
    /\ c = the_crew (effective_question q)
    /\ calls (log (run fw pf lines files).2)
       = setup_calls (effective_question q) ++ [EvKickoff c].
Proof.
  intros Hin. apply kickoffs_elem_of in Hin.
  destruct (run_structure fw pf lines files)
    as (_ & [(Hk & _)|(q & rest & question & -> & -> & Hc & _)]).
  - rewrite Hk in Hin. by apply elem_of_nil in Hin.
  - rewrite <- kickoffs_calls, Hc in Hin.
    apply list_elem_of_singleton in Hin as ->. by exists q, rest.
Qed.

(** ** Further properties of the program *)

(** X1: [main] consumes exactly one line of standard input on every path
    (none when the input is at end of file); the lines after it stay
    unread. *)
Theorem main_reads_one_line fw pf lines files :
  stdin (run fw pf lines files).2 = tail lines.
Proof. apply run_structure. Qed.

(** X2: the program itself never changes a file: after a run the files are
    the initial ones when the orchestrator was not reached, and otherwise
    exactly those the one [kickoff] call left. *)
Theorem files_change_only_in_kickoff fw pf lines files :
  let R := run fw pf lines files in
  fs R.2 = match kickoffs (log R.2) with
           | [] => files
           | c :: _ => ko_fs (Crew_kickoff fw c files)
           end.
Proof.
  cbv zeta.
  destruct (run_structure fw pf lines files)
    as (_ & [(Hk & Hfs & _)|(q & rest & question & _ & _ & Hc & Hfs & _)]).
  - by rewrite Hk.
  - by rewrite <- kickoffs_calls, Hc.
Qed.

(** X3: [kickoff] is entered at most once in a run (a failure is never
    retried), and [main] returns normally only in runs that entered it. *)
Theorem kickoff_entered_at_most_once fw pf lines files :
  let R := run fw pf lines files in
  length (kickoffs (log R.2)) <= 1
  /\ (R.1 = Returns tt -> length (kickoffs (log R.2)) = 1).
Proof.
  cbv zeta.
  destruct (run_structure fw pf lines files)
    as (_ & [(Hk & _ & e & ev & Ho & _)|(q & rest & question & _ & _ & Hc & _)]).
  - rewrite Hk, Ho. split; [simpl; lia|discriminate].
  - rewrite <- kickoffs_calls, Hc. split; [simpl; lia|done].
Qed.

(** X4: the crew handed to the orchestrator is assembled from the objects
    constructed for the question in effect (the line read, or the default
    when that line is blank), and before [kickoff] the program has made
    exactly the seven constructor calls of the source, each once, in order:
    reading tool, persona agent, writing tool, editor agent, research task,
    writing task, crew. *)
Theorem crew_is_assembled_from_constructed_objects fw pf lines files c :
  EvKickoff c ∈ log (run fw pf lines files).2 ->
  exists q rest,
    lines = q :: rest
    /\ c = the_crew (effective_question q)
    /\ calls (log (run fw pf lines files).2)
       = setup_calls (effective_question q) ++ [EvKickoff c].
Proof. apply kickoff_inv. Qed.

Lemma X4_witness :
  EvKickoff (the_crew a_question) ∈ log run_without_file.2
  /\ exists q rest,
       [a_question] = q :: rest
       /\ the_crew a_question = the_crew (effective_question q)
       /\ calls (log run_without_file.2)
          = setup_calls (effective_question q) ++ [EvKickoff (the_crew a_question)].
Proof.
  assert (H : EvKickoff (the_crew a_question) ∈ log run_without_file.2) by in_log.
  split; [exact H|].
  exact (crew_is_assembled_from_constructed_objects _ _ _ _ _ H).
Defined.

(** X5: in the crew handed to the orchestrator each task is assigned to the
    agent of the crew at the same position, the persona agent has the
    file-reading tool for [./information.txt] and nothing else, the editor
    agent has the file-writing tool and nothing else, no agent may
    delegate, and the process is sequential. *)
Theorem crew_wiring fw pf lines files c :
  EvKickoff c ∈ log (run fw pf lines files).2 ->
  agent <$> tasks c = agents c
  /\ tools <$> agents c = [[FileReadTool (u"./information.txt")]; [FileWriterTool]]
  /\ Forall (fun a => allow_delegation a = false) (agents c)
  /\ process c = sequential.
Proof.
  intros Hin. apply kickoff_inv in Hin as (q & rest & _ & -> & _).
  split; [reflexivity|]. split; [vm_compute; reflexivity|].
  split; [|reflexivity]. repeat constructor.
Qed.

Lemma X5_witness :
  EvKickoff (the_crew a_question) ∈ log run_without_file.2
  /\ agent <$> tasks (the_crew a_question) = agents (the_crew a_question)
  /\ tools <$> agents (the_crew a_question)
     = [[FileReadTool (u"./information.txt")]; [FileWriterTool]]
  /\ Forall (fun a => allow_delegation a = false) (agents (the_crew a_question))
  /\ process (the_crew a_question) = sequential.
Proof.
  assert (H : EvKickoff (the_crew a_question) ∈ log run_without_file.2) by in_log.
  split; [exact H|].
  exact (crew_wiring _ _ _ _ _ H).
Defined.



(** X7: an exception raised by the orchestrator call that is not an instance
    of [Exception] (a keyboard interrupt, a system exit) is never swallowed:
    it leaves [main], and the program prints nothing after the call. *)
Theorem interrupts_of_kickoff_escape fw pf lines files e :
  let R := run fw pf lines files in
  EvKickoffEnd (Raises e) ∈ log R.2 ->
  isinstance_Exception e = false ->
  R.1 = Raises e /\ last (log R.2) = Some (EvKickoffEnd (Raises e)).
Proof.
  cbv zeta. destruct (run fw pf lines files) as [o w] eqn:HR.
  destruct lines as [|q rest]; run_cases HR.
  all: intros Hin He; elim_in Hin; injection Hin as <-.
  all: try congruence.
  all: split; [done|].
  all: apply (suffix_last [EvKickoffEnd (Raises e)]); [ends_with|reflexivity].
Qed.

Lemma X7_witness :
  (EvKickoffEnd (Raises keyboard_interrupt) ∈ log run_interrupted.2
   /\ isinstance_Exception keyboard_interrupt = false)
  /\ run_interrupted.1 = Raises keyboard_interrupt
  /\ last (log run_interrupted.2) = Some (EvKickoffEnd (Raises keyboard_interrupt)).
Proof.
  assert (H1 : EvKickoffEnd (Raises keyboard_interrupt) ∈ log run_interrupted.2)
    by in_log.
  assert (H2 : isinstance_Exception keyboard_interrupt = false)
    by (vm_compute; reflexivity).
  split; [split; assumption|].
  exact (interrupts_of_kickoff_escape _ _ _ _ _ H1 H2).
Defined.



(** X9: for a question that is not blank no default is substituted: the run
    begins with the welcome line, the separator, the prompt, the reading of
    the question, and directly the question banner with the question as
    read. *)
Theorem nonblank_question_is_not_replaced fw pf q rest files :
  forallb isspace q = false ->
  asking q `prefix_of` log (run fw pf (q :: rest) files).2.
Proof.
  rewrite <- blank_test.
  destruct (run fw pf (q :: rest) files) as [o w] eqn:HR.
  run_cases HR.
  all: intros Hq; try discriminate Hq.
  all: unfold asking, question_banner; eexists; cbn [app]; reflexivity.
Qed.

Lemma X9_witness :
  forallb isspace padded_question = false
  /\ asking padded_question `prefix_of` log run_padded.2.
Proof.
  assert (H : forallb isspace padded_question = false) by (vm_compute; reflexivity).
  split; [exact H|].
  exact (nonblank_question_is_not_replaced _ _ _ _ _ H).
Defined.

(** X10: the research task determines the question: two calls of
    [create_johnson_response_task] that return the same task were given the
    same agent and the same question. *)
Theorem research_task_determines_question fw a1 a2 q1 q2 w1 w2 t w1' w2' :
  create_johnson_response_task fw a1 q1 w1 = (Returns t, w1') ->
  create_johnson_response_task fw a2 q2 w2 = (Returns t, w2') ->
  a1 = a2 /\ q1 = q2.
Proof.
  unfold create_johnson_response_task, new_Task, construct.
  destruct (Task_init fw (johnson_response_task a1 q1)); [discriminate|].
  destruct (Task_init fw (johnson_response_task a2 q2)); [discriminate|].
  intros H1 H2.
  assert (H : johnson_response_task a1 q1 = johnson_response_task a2 q2)
    by congruence.
  pose proof (f_equal agent H) as Ha.
  pose proof (f_equal description H) as Hd.
  rewrite !agent_johnson_response_task in Ha.
  rewrite !description_johnson_response_task in Hd.
  apply app_inv_head, app_inv_tail in Hd. by subst.
Qed.

Lemma X10_witness :
  (create_johnson_response_task (fw_idle []) researcher a_question
     {| stdin := []; fs := ∅; log := [] |}
   = (Returns (johnson_response_task researcher a_question),
      {| stdin := []; fs := ∅;
         log := [EvNewTask (johnson_response_task researcher a_question) None] |}))
  /\ researcher = researcher /\ a_question = a_question.
Proof.
  assert (H : create_johnson_response_task (fw_idle []) researcher a_question
                {| stdin := []; fs := ∅; log := [] |}
              = (Returns (johnson_response_task researcher a_question),
                 {| stdin := []; fs := ∅;
                    log := [EvNewTask (johnson_response_task researcher a_question) None] |}))
    by reflexivity.
  split; [exact H|].
  exact (research_task_determines_question _ _ _ _ _ _ _ _ _ _ H H).
Defined.

(** X11: the writing task does not depend on the question: every task a run
    constructs for the editor agent is the one fixed task of
    [create_writing_task], whatever was typed. *)
Theorem writing_task_is_fixed fw pf lines files t rejected :
  EvNewTask t rejected ∈ log (run fw pf lines files).2 ->
  role (agent t) = editor_role ->
  t = writing_task writer.
Proof.
  destruct (run fw pf lines files) as [o w] eqn:HR.
  destruct lines as [|q rest]; run_cases HR.
  all: intros Hin Hrole; elim_in Hin; injection Hin as -> ->.
  all: first [ reflexivity
             | rewrite agent_johnson_response_task, role_twin_agent in Hrole;
               symmetry in Hrole; destruct (roles_differ Hrole) ].
Qed.

Lemma X11_witness :
  (EvNewTask (writing_task writer) None ∈ log run_without_file.2
   /\ role (agent (writing_task writer)) = editor_role)
  /\ writing_task writer = writing_task writer.
Proof.
  assert (H1 : EvNewTask (writing_task writer) None ∈ log run_without_file.2)
    by in_log.
  assert (H2 : role (agent (writing_task writer)) = editor_role)
    by (vm_compute; reflexivity).
  split; [split; assumption|].
  exact (writing_task_is_fixed _ _ _ _ _ _ H1 H2).
Defined.
